(** * OpenAIConversationHandler: a shallow embedding of [openai_conversation.py]

    The handler keeps an ordered list of role-tagged messages, appends to it,
    forwards it to the chat-completion endpoint and records the reply.  Python
    values are dynamically typed, so the embedding works over a small universe
    of runtime values; methods are computations in a state-and-exception monad
    over the handler object, the process output and the log of requests sent
    to the service. *)

From Stdlib Require Import ZArith List String Ascii Bool Lia DecimalString.
Import ListNotations.

Local Open Scope Z_scope.
Set Warnings "-register-all".

(** ** Runtime values *)

(** The values the handler can be handed or can store.  [VStrSub cls s] is an
    instance of a proper subclass [cls] of [str] holding the text [s].
    [VObj cls fields] is a response object of the openai library (an
    [OpenAIObject]: a dict whose keys can also be read as attributes).
    Floats are never computed with; [VFloat] carries the binary64 bit
    pattern. *)
Record class_ref : Type := mkClass { cls_module : string; cls_name : string }.

Inductive value : Type :=
| VNone
| VBool (b : bool)
| VInt (n : Z)
| VFloat (bits : Z)
| VStr (s : string)
| VStrSub (cls : class_ref) (s : string)
| VList (items : list value)
| VDict (entries : list (string * value))
| VObj (cls : class_ref) (fields : list (string * value)).

(** Type objects, as returned by [type(x)].  Two type objects are the same
    object exactly when they are the same constructor (and, for classes, the
    same class). *)
Inductive pytype : Type :=
| TNoneType | TBool | TInt | TFloat | TStr | TList | TDict
| TStrSubclass (cls : class_ref)
| TClass (cls : class_ref).

Definition type_of (v : value) : pytype :=
  match v with
  | VNone => TNoneType
  | VBool _ => TBool
  | VInt _ => TInt
  | VFloat _ => TFloat
  | VStr _ => TStr
  | VStrSub cls _ => TStrSubclass cls
  | VList _ => TList
  | VDict _ => TDict
  | VObj cls _ => TClass cls
  end.

(** [t is str] *)
Definition is_str (t : pytype) : bool :=
  match t with TStr => true | _ => false end.

(** [x is None] *)
Definition is_None (v : value) : bool :=
  match v with VNone => true | _ => false end.

Definition type_name (t : pytype) : string :=
  match t with
  | TNoneType => "NoneType"
  | TBool => "bool"
  | TInt => "int"
  | TFloat => "float"
  | TStr => "str"
  | TList => "list"
  | TDict => "dict"
  | TStrSubclass cls => cls_name cls
  | TClass cls => cls_name cls
  end.

(** What an f-string prints for a type object: a builtin type by its name,
    a class by its module and name (the text for a class defined at module
    level that keeps the default [repr] of its type). *)
Definition type_repr (t : pytype) : string :=
  match t with
  | TStrSubclass cls | TClass cls =>
      ("<class '" ++ cls_module cls ++ "." ++ cls_name cls ++ "'>")%string
  | _ => ("<class '" ++ type_name t ++ "'>")%string
  end.

(** [isinstance(v, str)]: the value is text, whatever its exact class.  The
    handler never evaluates this; it is the documentation's notion of
    "textual", against which the handler's own test is compared. *)
Definition isinstance_str (v : value) : bool :=
  match v with VStr _ | VStrSub _ _ => true | _ => false end.

(** ** Exceptions *)

(** The exception classes that can reach the handler.  [APIError] is
    [openai.error.APIError]; every other error of the library or of the
    interpreter that derives from [Exception] and has no constructor of its
    own is an [OtherException].  [KeyboardInterrupt] and [SystemExit] derive
    from [BaseException] only. *)
Inductive exn_class : Type :=
| APIError
| ValueError
| TypeError
| AttributeError
| IndexError
| KeyError
| OtherException (name : string)
| KeyboardInterrupt
| SystemExit.

Record exn : Type := mkExn { exn_cls : exn_class; exn_str : string }.

(** [isinstance(e, openai.error.APIError)] *)
Definition is_APIError (e : exn) : bool :=
  match exn_cls e with APIError => true | _ => false end.

(** [isinstance(e, Exception)] *)
Definition is_Exception (e : exn) : bool :=
  match exn_cls e with KeyboardInterrupt | SystemExit => false | _ => true end.

Inductive outcome (A : Type) : Type :=
| Return (a : A)
| Raise (e : exn).
Arguments Return {A} a.
Arguments Raise {A} e.

Definition returns {A : Type} (o : outcome A) : bool :=
  match o with Return _ => true | Raise _ => false end.

(** ** Attribute access and subscripting *)

Fixpoint assoc (k : string) (d : list (string * value)) : option value :=
  match d with
  | [] => None
  | (k', v) :: rest => if String.eqb k k' then Some v else assoc k rest
  end.

Definition no_attribute (v : value) (name : string) : exn :=
  mkExn AttributeError
    ("'" ++ type_name (type_of v) ++ "' object has no attribute '" ++ name ++ "'")%string.

(** [v.name], for a [name] that is not a method of a builtin type (the
    handler reads [choices], [message] and [content] only).  Only response
    objects expose their keys as attributes; in particular a plain dict does
    not. *)
Definition getattr (v : value) (name : string) : outcome value :=
  match v with
  | VObj _ fields =>
      match assoc name fields with
      | Some x => Return x
      | None => Raise (mkExn AttributeError name)
      end
  | _ => Raise (no_attribute v name)
  end.

(** [l[i]] on a list: a negative index counts from the end, and the index
    is then checked against the bounds.  The class of the error is that of
    Python for every integer; its text is that of Python for the indices
    that fit a machine word. *)
Definition list_getitem (l : list value) (i : Z) : outcome value :=
  let n := Z.of_nat (List.length l) in
  let j := if i <? 0 then i + n else i in
  if (j <? 0) || (n <=? j)
  then Raise (mkExn IndexError "list index out of range")
  else match nth_error l (Z.to_nat j) with
       | Some x => Return x
       | None => Raise (mkExn IndexError "list index out of range")
       end.

Definition str_getitem (s : string) (i : Z) : outcome value :=
  let n := Z.of_nat (String.length s) in
  let j := if i <? 0 then i + n else i in
  if (j <? 0) || (n <=? j)
  then Raise (mkExn IndexError "string index out of range")
  else match String.get (Z.to_nat j) s with
       | Some c => Return (VStr (String c EmptyString))
       | None => Raise (mkExn IndexError "string index out of range")
       end.

(** A value used as an index: an [int], or a [bool] (which is an [int]). *)
Definition as_index (k : value) : option Z :=
  match k with
  | VInt i => Some i
  | VBool b => Some (Z.b2z b)
  | _ => None
  end.

(** [l[k]] for a list [l] and a value [k] of the universe above.  A slice,
    and an object defining [__index__], are accepted by Python as list
    indices; neither is a [value], so nothing is stated here about them. *)
Definition list_subscript (l : list value) (k : value) : outcome value :=
  match as_index k with
  | Some i => list_getitem l i
  | None =>
      Raise (mkExn TypeError
               ("list indices must be integers or slices, not "
                  ++ type_name (type_of k))%string)
  end.

Definition decimal (i : Z) : string := NilZero.string_of_int (Z.to_int i).

(** [v[i]] for any value [v] and an integer [i].  The keys of a dict and of a
    response object are strings, so an integer is never among them. *)
Definition getitem_int (v : value) (i : Z) : outcome value :=
  match v with
  | VList l => list_getitem l i
  | VStr s | VStrSub _ s => str_getitem s i
  | VDict _ | VObj _ _ => Raise (mkExn KeyError (decimal i))
  | _ =>
      Raise (mkExn TypeError
               ("'" ++ type_name (type_of v) ++ "' object is not subscriptable")%string)
  end.

(** ** The handler object and the world around it *)

Record OpenAIConversationHandler : Type := mkHandler {
  model : value;
  temperature : value;
  max_tokens : value;
  top_p : value;
  frequency_penalty : value;
  presence_penalty : value;
  system_context : value;
  messages : list value;
  message_index : Z
}.

(** The keyword arguments of [openai.ChatCompletion.create]. *)
Module ChatCompletion.
Record kwargs : Type := mkKwargs {
  model : value;
  messages : list value;
  temperature : value;
  max_tokens : value;
  top_p : value;
  frequency_penalty : value;
  presence_penalty : value
}.
End ChatCompletion.

(** The handler, the module-level [openai.api_key], the lines printed so far
    and the requests sent to the service so far. *)
Record world : Type := mkWorld {
  self : OpenAIConversationHandler;
  api_key : value;
  stdout : list string;
  requests : list ChatCompletion.kwargs
}.

Definition with_self (h : OpenAIConversationHandler) (w : world) : world :=
  mkWorld h (api_key w) (stdout w) (requests w).

(** Attribute assignments [self.x = v]. *)
Definition set_model v h :=
  mkHandler v (temperature h) (max_tokens h) (top_p h) (frequency_penalty h)
    (presence_penalty h) (system_context h) (messages h) (message_index h).
Definition set_temperature v h :=
  mkHandler (model h) v (max_tokens h) (top_p h) (frequency_penalty h)
    (presence_penalty h) (system_context h) (messages h) (message_index h).
Definition set_max_tokens v h :=
  mkHandler (model h) (temperature h) v (top_p h) (frequency_penalty h)
    (presence_penalty h) (system_context h) (messages h) (message_index h).
Definition set_top_p v h :=
  mkHandler (model h) (temperature h) (max_tokens h) v (frequency_penalty h)
    (presence_penalty h) (system_context h) (messages h) (message_index h).
Definition set_frequency_penalty v h :=
  mkHandler (model h) (temperature h) (max_tokens h) (top_p h) v
    (presence_penalty h) (system_context h) (messages h) (message_index h).
Definition set_presence_penalty v h :=
  mkHandler (model h) (temperature h) (max_tokens h) (top_p h) (frequency_penalty h)
    v (system_context h) (messages h) (message_index h).
Definition set_system_context v h :=
  mkHandler (model h) (temperature h) (max_tokens h) (top_p h) (frequency_penalty h)
    (presence_penalty h) v (messages h) (message_index h).
Definition set_messages l h :=
  mkHandler (model h) (temperature h) (max_tokens h) (top_p h) (frequency_penalty h)
    (presence_penalty h) (system_context h) l (message_index h).
Definition set_message_index i h :=
  mkHandler (model h) (temperature h) (max_tokens h) (top_p h) (frequency_penalty h)
    (presence_penalty h) (system_context h) (messages h) i.

(** ** The monad of methods *)

(** A computation runs in a world and either returns or raises; in both
    cases the world is the one reached when it stopped. *)
Definition M (A : Type) : Type := world -> outcome A * world.

Definition ret {A : Type} (a : A) : M A := fun w => (Return a, w).

Definition bind {A B : Type} (m : M A) (f : A -> M B) : M B :=
  fun w =>
    match m w with
    | (Return a, w') => f a w'
    | (Raise e, w') => (Raise e, w')
    end.

Definition raise {A : Type} (e : exn) : M A := fun w => (Raise e, w).

Definition lift {A : Type} (o : outcome A) : M A := fun w => (o, w).

Definition get_self : M OpenAIConversationHandler := fun w => (Return (self w), w).

Definition assign (f : OpenAIConversationHandler -> OpenAIConversationHandler) : M unit :=
  fun w => (Return tt, with_self (f (self w)) w).

Definition set_api_key (k : value) : M unit :=
  fun w => (Return tt, mkWorld (self w) k (stdout w) (requests w)).

Definition print (line : string) : M unit :=
  fun w => (Return tt, mkWorld (self w) (api_key w) (stdout w ++ [line]) (requests w)).

Declare Scope py_scope.
Delimit Scope py_scope with py.
Notation "x <- m ;; k" := (bind m (fun x => k))
  (at level 100, m at next level, right associativity) : py_scope.
Notation "m ;; k" := (bind m (fun _ => k))
  (at level 100, right associativity) : py_scope.
Local Open Scope py_scope.

(** [try: body  except C1 as e: h1  except C2 as e: h2 ...]: the first clause
    whose class the exception is an instance of handles it; an exception no
    clause matches propagates. *)
Definition except_clause : Type := ((exn -> bool) * (exn -> M unit))%type.

Fixpoint dispatch (clauses : list except_clause) (e : exn) : M unit :=
  match clauses with
  | [] => raise e
  | (guard, h) :: rest => if guard e then h e else dispatch rest e
  end.

Definition try_except (body : M unit) (clauses : list except_clause) : M unit :=
  fun w =>
    match body w with
    | (Return a, w') => (Return a, w')
    | (Raise e, w') => dispatch clauses e w'
    end.

(** ** The methods *)

(** [add_message(self, role, content)] *)
Definition add_message (role content : value) : M value :=
  assign (fun h =>
    set_messages (messages h ++ [VDict [("role"%string, role); ("content"%string, content)]]) h) ;;
  assign (fun h => set_message_index (message_index h + 1) h) ;;
  ret VNone.

(** [__init__(self, api_key, model_name, system_context, temperature,
    max_tokens, top_p, frequency_penalty, presence_penalty)] *)
Definition __init__
    (api_key model_name system_context temperature max_tokens top_p
       frequency_penalty presence_penalty : value) : M value :=
  set_api_key api_key ;;
  assign (set_model model_name) ;;
  assign (set_temperature temperature) ;;
  assign (set_max_tokens max_tokens) ;;
  assign (set_top_p top_p) ;;
  assign (set_frequency_penalty frequency_penalty) ;;
  assign (set_presence_penalty presence_penalty) ;;
  assign (set_system_context system_context) ;;
  assign (set_messages []) ;;
  assign (set_message_index (-1)) ;;
  add_message (VStr "system") system_context.

(** The defaults of the optional constructor arguments. *)
Definition default_temperature : value := VInt 1.
Definition default_max_tokens : value := VInt 1024.
Definition default_top_p : value := VInt 1.
Definition default_frequency_penalty : value := VInt 0.
Definition default_presence_penalty : value := VInt 0.

(** [clear_history(self)] *)
Definition clear_history : M value :=
  assign (set_messages []) ;;
  assign (set_message_index (-1)) ;;
  h <- get_self ;;
  add_message (VStr "system") (system_context h).

(** [gpt_response.choices[0].message.content] *)
Definition first_choice_content (gpt_response : value) : outcome value :=
  match getattr gpt_response "choices" with
  | Raise e => Raise e
  | Return choices =>
      match getitem_int choices 0 with
      | Raise e => Raise e
      | Return choice =>
          match getattr choice "message" with
          | Raise e => Raise e
          | Return message => getattr message "content"
          end
      end
  end.

(** [add_message_from_gpt_response(self, gpt_response)] *)
Definition add_message_from_gpt_response (gpt_response : value) : M value :=
  reply <- lift (first_choice_content gpt_response) ;;
  add_message (VStr "assistant") reply.

(** [add_message_from_user(self, user_msg)] *)
Definition add_message_from_user (user_msg : value) : M value :=
  if negb (is_str (type_of user_msg))
  then raise (mkExn ValueError
                ("Incorrect message type - expecting string, user_msg is "
                   ++ type_repr (type_of user_msg))%string)
  else add_message (VStr "user") user_msg.

(** [get_response(self, index=None)] *)
Definition get_response (index : value) : M value :=
  h <- get_self ;;
  let index := if is_None index then VInt (message_index h) else index in
  message <- lift (list_subscript (messages h) index) ;;
  lift (getattr message "content").

Section Service.

(** [openai.ChatCompletion.create]: the remote service, which the handler
    treats as opaque.  Its answer may depend on the request and on how many
    requests came before; it either returns a response or raises. *)
Variable create : nat -> ChatCompletion.kwargs -> outcome value.

Definition call_create (kw : ChatCompletion.kwargs) : M value :=
  fun w =>
    (create (List.length (requests w)) kw,
     mkWorld (self w) (api_key w) (stdout w) (requests w ++ [kw])).

(** The keyword arguments [get_chatgpt_response] builds from [self]. *)
Definition request_of (h : OpenAIConversationHandler) : ChatCompletion.kwargs :=
  ChatCompletion.mkKwargs (model h) (messages h) (temperature h) (max_tokens h)
    (top_p h) (frequency_penalty h) (presence_penalty h).

(** The body of the [try] in [get_chatgpt_response]. *)
Definition completion : M unit :=
  h <- get_self ;;
  response <- call_create (request_of h) ;;
  add_message_from_gpt_response response ;;
  ret tt.

(** [get_chatgpt_response(self)] *)
Definition get_chatgpt_response : M value :=
  try_except completion
    [ (is_APIError,
        fun e => print ("An OpenAI error occurred: " ++ exn_str e)%string);
      (is_Exception,
        fun e => print ("An unexpected error occurred: " ++ exn_str e)%string) ] ;;
  ret VNone.

(** *** Sessions: a constructor call followed by method calls *)

Inductive call : Type :=
| ClearHistory
| AddMessageFromGptResponse (gpt_response : value)
| AddMessageFromUser (user_msg : value)
| AddMessage (role content : value)
| GetChatgptResponse
| GetResponse (index : value).

Definition invoke (c : call) : M value :=
  match c with
  | ClearHistory => clear_history
  | AddMessageFromGptResponse r => add_message_from_gpt_response r
  | AddMessageFromUser m => add_message_from_user m
  | AddMessage role content => add_message role content
  | GetChatgptResponse => get_chatgpt_response
  | GetResponse index => get_response index
  end.

(** The world after a sequence of calls, each made from the world the
    previous one left (whether it returned or raised). *)
Fixpoint exec (cs : list call) (w : world) : world :=
  match cs with
  | [] => w
  | c :: rest => exec rest (snd (invoke c w))
  end.

(** The worlds a sequence of calls goes through, one per call. *)
Fixpoint trace (cs : list call) (w : world) : list world :=
  match cs with
  | [] => []
  | c :: rest => snd (invoke c w) :: trace rest (snd (invoke c w))
  end.

End Service.

(** The arguments of a constructor call. *)
Record init_args : Type := mkArgs {
  arg_api_key : value;
  arg_model_name : value;
  arg_system_context : value;
  arg_temperature : value;
  arg_max_tokens : value;
  arg_top_p : value;
  arg_frequency_penalty : value;
  arg_presence_penalty : value
}.

(** [OpenAIConversationHandler(...)]: the world once the constructor is done. *)
Definition construct (a : init_args) (w : world) : world :=
  snd (__init__ (arg_api_key a) (arg_model_name a) (arg_system_context a)
         (arg_temperature a) (arg_max_tokens a) (arg_top_p a)
         (arg_frequency_penalty a) (arg_presence_penalty a) w).

(** ** Observations on a handler *)

Definition size (h : OpenAIConversationHandler) : Z := Z.of_nat (List.length (messages h)).

(** A message as [add_message] builds it. *)
Definition message (role content : value) : value :=
  VDict [("role"%string, role); ("content"%string, content)].

(** The cursor points at the last message. *)
Definition cursor_ok (h : OpenAIConversationHandler) : Prop :=
  message_index h = size h - 1.

Definition is_message (v : value) : Prop :=
  exists role content, v = message role content.

(** The handler once [add_message(role, content)] has run on [h]. *)
Definition appended (role content : value) (h : OpenAIConversationHandler)
  : OpenAIConversationHandler :=
  set_message_index (message_index h + 1)
    (set_messages (messages h ++ [message role content]) h).

(** The handler once [clear_history()] has run on [h]. *)
Definition cleared (h : OpenAIConversationHandler) : OpenAIConversationHandler :=
  appended (VStr "system") (system_context h)
    (set_message_index (-1) (set_messages [] h)).

Definition raises_class (c : exn_class) (o : outcome value) : Prop :=
  exists e, o = Raise e /\ exn_cls e = c.

(** A process that has constructed nothing yet: no key set, nothing printed,
    nothing sent; the handler attributes are all still to be assigned. *)
Definition boot : world :=
  mkWorld (mkHandler VNone VNone VNone VNone VNone VNone VNone [] 0) VNone [] [].

(** The constructor call of the scenario: the system context and the default
    generation parameters. *)
Definition helpful : init_args :=
  mkArgs (VStr "sk-test") (VStr "gpt-3.5-turbo") (VStr "You are helpful.")
    default_temperature default_max_tokens default_top_p
    default_frequency_penalty default_presence_penalty.

(** A well-formed response carrying the given candidates' texts. *)
Definition openai_object : class_ref := mkClass "openai.openai_object" "OpenAIObject".

Definition choice_of (text : value) : value :=
  VObj openai_object
    [("index"%string, VInt 0);
     ("message"%string,
       VObj openai_object [("role"%string, VStr "assistant"); ("content"%string, text)])].

Definition response_of (texts : list value) : value :=
  VObj openai_object
    [("id"%string, VStr "chatcmpl-1"); ("choices"%string, VList (map choice_of texts))].

(** The world once the request built from [self] has been sent. *)
Definition sent (w : world) : world :=
  mkWorld (self w) (api_key w) (stdout w) (requests w ++ [request_of (self w)]).

(** The completion call fails with [e]: the service raises [e], or it returns
    a response in which [choices[0].message.content] cannot be read. *)
Definition completion_failure
    (create : nat -> ChatCompletion.kwargs -> outcome value) (w : world) (e : exn) : Prop :=
  create (List.length (requests w)) (request_of (self w)) = Raise e \/
  exists r, create (List.length (requests w)) (request_of (self w)) = Return r /\
            first_choice_content r = Raise e.

(** *** The documented behaviour, in the documentation's words

    These two statements are written from the description of the
    operations, not from the code; they are compared with the code below. *)

(** "Fails with an index error exactly when the index is outside
    [0, size(transcript))." *)
Definition index_error_iff_outside_0_size : Prop :=
  forall (w : world) (i : Z),
    raises_class IndexError (fst (get_response (VInt i) w)) <->
    ~ (0 <= i < size (self w)).

(** "Fails with an invalid-input error and leaves the transcript unchanged
    when the input is not textual; otherwise appends the user message and
    advances the cursor." *)
Definition user_text_accepted_iff_textual : Prop :=
  forall (v : value) (w : world),
    if isinstance_str v
    then fst (add_message_from_user v w) = Return VNone /\
         self (snd (add_message_from_user v w)) = appended (VStr "user") v (self w)
    else raises_class ValueError (fst (add_message_from_user v w)) /\
         snd (add_message_from_user v w) = w.

(** Three scenario sessions: just constructed; after the user said "Hi";
    after an assistant reply was added as well. *)
Definition session1 : world := construct helpful boot.
Definition session2 : world := snd (add_message_from_user (VStr "Hi") session1).
Definition session3 : world :=
  snd (add_message (VStr "assistant") (VStr "Hello!") session2).

(** What holds of the handler of every session: the cursor points at the
    last message, there is a message, and every message is a dict built by
    [add_message]. *)
Definition well_formed (h : OpenAIConversationHandler) : Prop :=
  cursor_ok h /\ 1 <= size h /\ Forall is_message (messages h).

(** The error of reading [.content] on a dict. *)
Definition dict_has_no_content : exn :=
  mkExn AttributeError "'dict' object has no attribute 'content'".

(** Three services: one that is down, one that answers with an empty list
    of candidates, one that answers with two candidates. *)
Definition service_down : nat -> ChatCompletion.kwargs -> outcome value :=
  fun _ _ => Raise (mkExn APIError "The server had an error").

Definition service_empty : nat -> ChatCompletion.kwargs -> outcome value :=
  fun _ _ => Return (response_of []).

Definition service_hello : nat -> ChatCompletion.kwargs -> outcome value :=
  fun _ _ => Return (response_of [VStr "Hello!"; VStr "Hi there!"]).

(** An instance of a user-defined subclass of [str]. *)
Definition tagged_hi : value := VStrSub (mkClass "__main__" "Tag") "Hi".

(** *** Kinds of calls, for statements about whole sessions *)

Definition is_completion_call (c : call) : bool :=
  match c with GetChatgptResponse => true | _ => false end.

Definition is_clear_call (c : call) : bool :=
  match c with ClearHistory => true | _ => false end.

(** A call of [add_message] made from outside the class. *)
Definition is_direct_add (c : call) : bool :=
  match c with AddMessage _ _ => true | _ => false end.

(** The number of [get_chatgpt_response] calls in a sequence. *)
Definition count_completions (cs : list call) : nat :=
  List.length (filter is_completion_call cs).

(** The message carries one of the three roles the class itself writes. *)
Definition known_role (m : value) : Prop :=
  exists content,
    m = message (VStr "system") content \/
    m = message (VStr "user") content \/
    m = message (VStr "assistant") content.

(** The generation parameters and the system context of a handler. *)
Definition settings (h : OpenAIConversationHandler) : list value :=
  [model h; temperature h; max_tokens h; top_p h; frequency_penalty h;
   presence_penalty h; system_context h].

(** The system message is the first of the transcript. *)
Definition system_first (h : OpenAIConversationHandler) : Prop :=
  exists rest, messages h = message (VStr "system") (system_context h) :: rest.

(** A service interrupted from the keyboard while it waits. *)
Definition service_interrupted : nat -> ChatCompletion.kwargs -> outcome value :=
  fun _ _ => Raise (mkExn KeyboardInterrupt "").

(** A service that is down for the first request and answers afterwards. *)
Definition service_recovering : nat -> ChatCompletion.kwargs -> outcome value :=
  fun n _ =>
    match n with
    | O => Raise (mkExn APIError "The server had an error")
    | S _ => Return (response_of [VStr "Hello!"])
    end.

(** ** Basic facts about the methods *)

Lemma add_message_run role content w :
  add_message role content w = (Return VNone, with_self (appended role content (self w)) w).
Proof. reflexivity. Qed.

Lemma clear_history_run w :
  clear_history w = (Return VNone, with_self (cleared (self w)) w).
Proof. reflexivity. Qed.

Lemma size_appended role content h : size (appended role content h) = size h + 1.
Proof.
  unfold size, appended. simpl. rewrite length_app. simpl. lia.
Qed.

Lemma cursor_ok_appended role content h :
  cursor_ok h -> cursor_ok (appended role content h).
Proof.
  unfold cursor_ok. intros H. rewrite size_appended.
  unfold appended. simpl. lia.
Qed.

Lemma cursor_ok_cleared h : cursor_ok (cleared h).
Proof. reflexivity. Qed.

Lemma first_choice_content_response text others :
  first_choice_content (response_of (text :: others)) = Return text.
Proof. reflexivity. Qed.

(** An exception raised while reading [choices[0].message.content] is an
    [AttributeError], an [IndexError], a [KeyError] or a [TypeError], hence
    an [Exception]. *)
Lemma getattr_raises_Exception v name e :
  getattr v name = Raise e -> is_Exception e = true.
Proof.
  destruct v; simpl; try (intros [= <-]; reflexivity).
  destruct (assoc name fields); intros [= <-]. reflexivity.
Qed.

Lemma list_getitem_raises_IndexError l i e :
  list_getitem l i = Raise e -> exn_cls e = IndexError.
Proof.
  unfold list_getitem.
  destruct ((_ <? 0) || _)%bool; [intros [= <-]; reflexivity|].
  destruct (nth_error _ _); intros [= <-]. reflexivity.
Qed.

Lemma str_getitem_raises_IndexError s i e :
  str_getitem s i = Raise e -> exn_cls e = IndexError.
Proof.
  unfold str_getitem.
  destruct ((_ <? 0) || _)%bool; [intros [= <-]; reflexivity|].
  destruct (String.get _ _); intros [= <-]. reflexivity.
Qed.

Lemma getitem_int_raises_Exception v i e :
  getitem_int v i = Raise e -> is_Exception e = true.
Proof.
  unfold is_Exception.
  destruct v; simpl; try (intros [= <-]; reflexivity).
  - intros H. now rewrite (str_getitem_raises_IndexError _ _ _ H).
  - intros H. now rewrite (str_getitem_raises_IndexError _ _ _ H).
  - intros H. now rewrite (list_getitem_raises_IndexError _ _ _ H).
Qed.

Lemma first_choice_content_raises_Exception r e :
  first_choice_content r = Raise e -> is_Exception e = true.
Proof.
  unfold first_choice_content.
  destruct (getattr r "choices") as [choices|e1] eqn:H1.
  2:{ intros [= <-]. eauto using getattr_raises_Exception. }
  destruct (getitem_int choices 0) as [choice|e2] eqn:H2.
  2:{ intros [= <-]. eauto using getitem_int_raises_Exception. }
  destruct (getattr choice "message") as [msg|e3] eqn:H3.
  2:{ intros [= <-]. eauto using getattr_raises_Exception. }
  apply getattr_raises_Exception.
Qed.

Lemma list_getitem_in_range l i :
  - Z.of_nat (List.length l) <= i < Z.of_nat (List.length l) ->
  exists x, list_getitem l i = Return x /\ In x l.
Proof.
  intros H. unfold list_getitem.
  set (n := Z.of_nat (List.length l)) in *.
  set (j := if i <? 0 then i + n else i).
  assert (Hj : 0 <= j < n) by (subst j; destruct (Z.ltb_spec i 0); lia).
  destruct (Z.ltb_spec j 0); [lia|]. destruct (Z.leb_spec n j); [lia|]. simpl.
  destruct (nth_error l (Z.to_nat j)) as [x|] eqn:Hx.
  - exists x. split; [reflexivity|]. eapply nth_error_In; eauto.
  - apply nth_error_None in Hx. lia.
Qed.

Lemma list_getitem_out_of_range l i :
  ~ (- Z.of_nat (List.length l) <= i < Z.of_nat (List.length l)) ->
  list_getitem l i = Raise (mkExn IndexError "list index out of range").
Proof.
  intros H. unfold list_getitem.
  set (n := Z.of_nat (List.length l)) in *.
  destruct (Z.ltb_spec i 0).
  - destruct (Z.ltb_spec (i + n) 0); [reflexivity|]. lia.
  - destruct (Z.ltb_spec i 0); [lia|]. destruct (Z.leb_spec n i); [reflexivity|]. lia.
Qed.

Lemma get_response_run index w :
  get_response index w =
    (match list_subscript (messages (self w))
             (if is_None index then VInt (message_index (self w)) else index) with
     | Return m => getattr m "content"
     | Raise e => Raise e
     end, w).
Proof.
  unfold get_response, bind, get_self, lift.
  destruct (list_subscript _ _); reflexivity.
Qed.

Lemma add_message_from_gpt_response_run r w :
  add_message_from_gpt_response r w =
    match first_choice_content r with
    | Return reply => (Return VNone, with_self (appended (VStr "assistant") reply (self w)) w)
    | Raise e => (Raise e, w)
    end.
Proof.
  unfold add_message_from_gpt_response, bind, lift.
  destruct (first_choice_content r); reflexivity.
Qed.

Lemma add_message_from_user_run v w :
  add_message_from_user v w =
    if is_str (type_of v)
    then (Return VNone, with_self (appended (VStr "user") v (self w)) w)
    else (Raise (mkExn ValueError
                   ("Incorrect message type - expecting string, user_msg is "
                      ++ type_repr (type_of v))%string), w).
Proof.
  unfold add_message_from_user. destruct (is_str (type_of v)); reflexivity.
Qed.

(** Closes a goal of [invoke_effect] once the call has been run. *)
Ltac effect_case :=
  simpl;
  first [ left; reflexivity
        | right; left; do 2 eexists; reflexivity
        | right; right; reflexivity ].

Section Properties.

Variable create : nat -> ChatCompletion.kwargs -> outcome value.

Lemma completion_run w :
  completion create w =
    match create (List.length (requests w)) (request_of (self w)) with
    | Raise e => (Raise e, sent w)
    | Return r =>
        match first_choice_content r with
        | Raise e => (Raise e, sent w)
        | Return reply =>
            (Return tt, with_self (appended (VStr "assistant") reply (self w)) (sent w))
        end
    end.
Proof.
  unfold completion, bind, get_self, call_create. simpl.
  destruct (create _ _) as [r|e]; [|reflexivity].
  rewrite add_message_from_gpt_response_run.
  destruct (first_choice_content r); reflexivity.
Qed.

Lemma completion_raises_iff w e :
  (exists w1, completion create w = (Raise e, w1)) <-> completion_failure create w e.
Proof.
  rewrite completion_run. unfold completion_failure.
  destruct (create _ _) as [r|e1].
  - destruct (first_choice_content r) as [reply|e2] eqn:Hr.
    + split; [intros [w1 [=]]|intros [[=]|(r' & [= <-] & H)]; congruence].
    + split.
      * intros [w1 [= <- _]]. right. eauto.
      * intros [[=]|(r' & [= <-] & H)]. rewrite Hr in H. injection H as <-. eauto.
  - split.
    + intros [w1 [= <- _]]. now left.
    + intros [[= <-]|(r' & [=] & _)]. eauto.
Qed.

(** What [get_chatgpt_response] does, case by case. *)
Lemma get_chatgpt_response_run w :
  get_chatgpt_response create w =
    match completion create w with
    | (Return _, w1) => (Return VNone, w1)
    | (Raise e, w1) =>
        if is_APIError e
        then (Return VNone,
               mkWorld (self w1) (api_key w1)
                 (stdout w1 ++ ["An OpenAI error occurred: " ++ exn_str e]%string)
                 (requests w1))
        else if is_Exception e
        then (Return VNone,
               mkWorld (self w1) (api_key w1)
                 (stdout w1 ++ ["An unexpected error occurred: " ++ exn_str e]%string)
                 (requests w1))
        else (Raise e, w1)
    end.
Proof.
  unfold get_chatgpt_response, bind, try_except.
  destruct (completion create w) as [[u|e] w1]; [reflexivity|].
  simpl. destruct (is_APIError e); [reflexivity|].
  destruct (is_Exception e); reflexivity.
Qed.

(** Every call leaves the handler as it was, or as [add_message] or
    [clear_history] leave it. *)
Lemma invoke_effect c w :
  self (snd (invoke create c w)) = self w \/
  (exists role content, self (snd (invoke create c w)) = appended role content (self w)) \/
  self (snd (invoke create c w)) = cleared (self w).
Proof.
  destruct c; simpl.
  - right; right. reflexivity.
  - rewrite add_message_from_gpt_response_run.
    destruct (first_choice_content _); simpl; effect_case.
  - rewrite add_message_from_user_run.
    destruct (is_str _); simpl; effect_case.
  - effect_case.
  - rewrite get_chatgpt_response_run, completion_run.
    destruct (create _ _) as [r|e].
    + destruct (first_choice_content r) as [reply|e]; simpl; [effect_case|].
      destruct (is_APIError e); [effect_case|].
      destruct (is_Exception e); effect_case.
    + destruct (is_APIError e); [effect_case|].
      destruct (is_Exception e); effect_case.
  - rewrite get_response_run. effect_case.
Qed.
(** *** The session invariant *)

Lemma well_formed_appended role content h :
  well_formed h -> well_formed (appended role content h).
Proof.
  intros (Hc & Hs & Hm). repeat split.
  - now apply cursor_ok_appended.
  - rewrite size_appended. lia.
  - unfold appended. simpl. apply Forall_app. split; [assumption|].
    constructor; [|constructor]. now exists role, content.
Qed.

Lemma well_formed_cleared h : well_formed (cleared h).
Proof.
  repeat split.
  - unfold size. simpl. lia.
  - simpl. constructor; [|constructor]. now exists (VStr "system"), (system_context h).
Qed.

Lemma construct_run a w :
  self (construct a w) =
    mkHandler (arg_model_name a) (arg_temperature a) (arg_max_tokens a) (arg_top_p a)
      (arg_frequency_penalty a) (arg_presence_penalty a) (arg_system_context a)
      [message (VStr "system") (arg_system_context a)] 0.
Proof. reflexivity. Qed.

Lemma well_formed_construct a w : well_formed (self (construct a w)).
Proof.
  rewrite construct_run. repeat split.
  - unfold size. simpl. lia.
  - simpl. constructor; [|constructor]. now exists (VStr "system"), (arg_system_context a).
Qed.

Lemma well_formed_invoke c w :
  well_formed (self w) -> well_formed (self (snd (invoke create c w))).
Proof.
  intros H.
  destruct (invoke_effect c w) as [-> | [(role & content & ->) | ->]].
  - assumption.
  - now apply well_formed_appended.
  - apply well_formed_cleared.
Qed.

Lemma well_formed_exec cs w :
  well_formed (self w) -> well_formed (self (exec create cs w)).
Proof.
  revert w. induction cs as [|c cs IH]; intros w H; simpl.
  - assumption.
  - apply IH. now apply well_formed_invoke.
Qed.

Lemma well_formed_trace cs w :
  well_formed (self w) -> Forall (fun w' => well_formed (self w')) (trace create cs w).
Proof.
  revert w. induction cs as [|c cs IH]; intros w H; simpl; constructor.
  - now apply well_formed_invoke.
  - apply IH. now apply well_formed_invoke.
Qed.

Lemma getattr_message_content m :
  is_message m -> getattr m "content" = Raise dict_has_no_content.
Proof. intros (role & content & ->). reflexivity. Qed.

Lemma getattr_raises_AttributeError v name e :
  getattr v name = Raise e -> exn_cls e = AttributeError.
Proof.
  destruct v; simpl; try (intros [= <-]; reflexivity).
  destruct (assoc name fields); intros [= <-]. reflexivity.
Qed.

Lemma list_subscript_In l k x : list_subscript l k = Return x -> In x l.
Proof.
  unfold list_subscript. destruct (as_index k) as [i|]; [|discriminate].
  unfold list_getitem. destruct ((_ <? 0) || _)%bool; [discriminate|].
  destruct (nth_error _ _) eqn:Hn; intros [= <-]. eapply nth_error_In; eauto.
Qed.

(** On a well-formed handler, a lookup that finds a message stops at the
    attribute access. *)
Lemma get_response_in_range w i :
  well_formed (self w) ->
  - size (self w) <= i < size (self w) ->
  get_response (VInt i) w = (Raise dict_has_no_content, w).
Proof.
  intros (_ & _ & Hm) Hi. rewrite get_response_run. simpl.
  unfold list_subscript. simpl.
  destruct (list_getitem_in_range (messages (self w)) i Hi) as (x & -> & Hx).
  rewrite Forall_forall in Hm. now rewrite (getattr_message_content x (Hm x Hx)).
Qed.

End Properties.

(** ** The claims *)

Section Claims.

Variable create : nat -> ChatCompletion.kwargs -> outcome value.

(** C1.  [get_response] is documented to return the content of the message
    at [index], the most recent one by default.  It never does: in every
    session (a constructor call followed by any calls) and for every
    argument the call raises; with no argument, and with the index 0 of the
    system message, the lookup finds the message and the attribute access
    [.content] on that dict raises [AttributeError]. *)
Theorem get_response_never_returns (a : init_args) (w0 : world) (cs : list call)
    (index : value) :
  let w := exec create cs (construct a w0) in
  returns (fst (get_response index w)) = false /\
  get_response VNone w = (Raise dict_has_no_content, w) /\
  get_response (VInt 0) w = (Raise dict_has_no_content, w).
Proof.
  intros w.
  assert (Hw : well_formed (self w))
    by (apply well_formed_exec, well_formed_construct).
  pose proof Hw as (Hc & Hs & Hm). repeat split.
  - rewrite get_response_run. simpl.
    destruct (list_subscript _ _) as [m|e] eqn:Hl; [|reflexivity].
    apply list_subscript_In in Hl. rewrite Forall_forall in Hm.
    now rewrite (getattr_message_content m (Hm m Hl)).
  - transitivity (get_response (VInt (message_index (self w))) w); [reflexivity|].
    apply get_response_in_range; [assumption|]. unfold cursor_ok in Hc. lia.
  - apply get_response_in_range; [assumption|]. lia.
Qed.

(** C2, amended.  For every session and every integer index,
    [get_response] fails with [IndexError] exactly when the index is outside
    [-size, size): an index from [-size] to [-1] counts from the end of the
    transcript and is in range.  In particular the index 99 on a transcript
    of three messages fails with [IndexError]. *)
Theorem get_response_IndexError_iff (w : world) (i : Z) :
  (raises_class IndexError (fst (get_response (VInt i) w)) <->
   ~ (- size (self w) <= i < size (self w))) /\
  (forall m1 m2 m3 : value,
      raises_class IndexError
        (fst (get_response (VInt 99)
                (with_self (set_messages [m1; m2; m3] (self w)) w)))).
Proof.
  split.
  - rewrite get_response_run. simpl. unfold list_subscript. simpl. split.
    + intros (e & He & Hcls) Hi.
      destruct (list_getitem_in_range (messages (self w)) i Hi) as (x & Hx & _).
      rewrite Hx in He.
      apply getattr_raises_AttributeError in He. congruence.
    + intros Hi. rewrite (list_getitem_out_of_range _ _ Hi).
      eexists. split; reflexivity.
  - intros m1 m2 m3. eexists. split; reflexivity.
Qed.

(** C6.  In every session the cursor equals the size of the transcript
    minus one, after the constructor and after every call.  Each appending
    call grows the transcript by exactly one: [add_message_from_user] given
    any string, [add_message_from_gpt_response] given any response whose
    reply can be read, [add_message] given anything, and
    [get_chatgpt_response] whenever the service answers with such a
    response; all of them return.  A call that raises appends nothing. *)
Theorem cursor_tracks_size (a : init_args) (w0 : world) (cs : list call) :
  let start := construct a w0 in
  Forall (fun w => message_index (self w) = size (self w) - 1)
    (start :: trace create cs start) /\
  (forall (w : world) (text : string),
      fst (add_message_from_user (VStr text) w) = Return VNone /\
      size (self (snd (add_message_from_user (VStr text) w))) = size (self w) + 1) /\
  (forall (w : world) (gpt_response reply : value),
      first_choice_content gpt_response = Return reply ->
      fst (add_message_from_gpt_response gpt_response w) = Return VNone /\
      size (self (snd (add_message_from_gpt_response gpt_response w))) = size (self w) + 1) /\
  (forall (w : world) (role content : value),
      fst (add_message role content w) = Return VNone /\
      size (self (snd (add_message role content w))) = size (self w) + 1) /\
  (forall (w : world) (response reply : value),
      create (List.length (requests w)) (request_of (self w)) = Return response ->
      first_choice_content response = Return reply ->
      fst (get_chatgpt_response create w) = Return VNone /\
      size (self (snd (get_chatgpt_response create w))) = size (self w) + 1) /\
  (forall (w : world) (c : call),
      returns (fst (invoke create c w)) = false ->
      size (self (snd (invoke create c w))) = size (self w)).
Proof.
  intros start. split; [|split; [|split; [|split; [|split]]]].
  - assert (H : Forall (fun w => well_formed (self w)) (start :: trace create cs start)).
    { constructor; [apply well_formed_construct|].
      apply well_formed_trace, well_formed_construct. }
    eapply Forall_impl; [|exact H]. intros w (Hc & _). exact Hc.
  - intros w text. rewrite add_message_from_user_run. cbn [type_of is_str fst snd].
    split; [reflexivity|apply size_appended].
  - intros w r reply Hr. rewrite add_message_from_gpt_response_run, Hr.
    split; [reflexivity|apply size_appended].
  - intros w role content. rewrite add_message_run.
    split; [reflexivity|apply size_appended].
  - intros w r reply Hcreate Hr.
    rewrite get_chatgpt_response_run, completion_run, Hcreate, Hr.
    split; [reflexivity|apply (size_appended (VStr "assistant") reply (self w))].
  - intros w c. destruct c; cbn [invoke].
    + rewrite clear_history_run. discriminate.
    + rewrite add_message_from_gpt_response_run.
      destruct (first_choice_content _); [discriminate|reflexivity].
    + rewrite add_message_from_user_run.
      destruct (is_str _); [discriminate|reflexivity].
    + rewrite add_message_run. discriminate.
    + rewrite get_chatgpt_response_run, completion_run.
      destruct (create _ _) as [r|e].
      * destruct (first_choice_content r) as [reply|e]; [discriminate|].
        destruct (is_APIError e); [discriminate|].
        destruct (is_Exception e); [discriminate|reflexivity].
      * destruct (is_APIError e); [discriminate|].
        destruct (is_Exception e); [discriminate|reflexivity].
    + rewrite get_response_run. reflexivity.
Qed.

(** C7.  Right after the constructor, and right after [clear_history]
    whatever the transcript held before, the transcript is exactly one
    message, with role [system] and with the stored system context as its
    content, and the cursor is 0. *)
Theorem init_and_clear_history_reset (a : init_args) (w : world) :
  (fst (__init__ (arg_api_key a) (arg_model_name a) (arg_system_context a)
          (arg_temperature a) (arg_max_tokens a) (arg_top_p a)
          (arg_frequency_penalty a) (arg_presence_penalty a) w) = Return VNone /\
   system_context (self (construct a w)) = arg_system_context a /\
   messages (self (construct a w)) =
     [VDict [("role"%string, VStr "system");
             ("content"%string, system_context (self (construct a w)))]] /\
   message_index (self (construct a w)) = 0) /\
  (fst (clear_history w) = Return VNone /\
   system_context (self (snd (clear_history w))) = system_context (self w) /\
   messages (self (snd (clear_history w))) =
     [VDict [("role"%string, VStr "system");
             ("content"%string, system_context (self w))]] /\
   message_index (self (snd (clear_history w))) = 0).
Proof. repeat split. Qed.

(** C3.  When the completion call fails -- the service raises an
    [APIError] or any other [Exception], or its response is malformed so
    that the reply cannot be read from it -- [get_chatgpt_response] does not
    raise: it returns [None], exactly as it does when the call succeeds; the
    handler, and so the transcript, is as it was before the call; one line
    reporting the error has been printed. *)
Theorem get_chatgpt_response_swallows_failure (w : world) (e : exn) :
  completion_failure create w e ->
  is_Exception e = true ->
  fst (get_chatgpt_response create w) = Return VNone /\
  self (snd (get_chatgpt_response create w)) = self w /\
  messages (self (snd (get_chatgpt_response create w))) = messages (self w) /\
  (exists line, stdout (snd (get_chatgpt_response create w)) = stdout w ++ [line]) /\
  (forall w' : world,
      returns (fst (completion create w')) = true ->
      fst (get_chatgpt_response create w') = Return VNone).
Proof.
  intros Hfail Hexn.
  apply completion_raises_iff in Hfail. destruct Hfail as (w1 & Hrun).
  assert (Hw1 : w1 = sent w).
  { rewrite completion_run in Hrun.
    destruct (create _ _) as [r|e1]; [|congruence].
    destruct (first_choice_content r); congruence. }
  subst w1.
  assert (Hsuccess : forall w' : world,
             returns (fst (completion create w')) = true ->
             fst (get_chatgpt_response create w') = Return VNone).
  { intros w' H'. rewrite get_chatgpt_response_run.
    destruct (completion create w') as [[u|e'] w1']; [reflexivity|discriminate]. }
  rewrite get_chatgpt_response_run, Hrun, Hexn.
  destruct (is_APIError e); simpl; repeat split; eauto.
Qed.


(** C5, amended.  [add_message_from_user] raises [ValueError] and leaves
    everything unchanged when the runtime type of its argument is not
    exactly [str] (the integer 42, for one); when it is exactly [str], the
    call appends the user message and advances the cursor by one. *)
Theorem add_message_from_user_exact_str (v : value) (w : world) :
  match v with
  | VStr text =>
      fst (add_message_from_user v w) = Return VNone /\
      messages (self (snd (add_message_from_user v w))) =
        messages (self w) ++
          [VDict [("role"%string, VStr "user"); ("content"%string, VStr text)]] /\
      message_index (self (snd (add_message_from_user v w))) = message_index (self w) + 1
  | _ =>
      raises_class ValueError (fst (add_message_from_user v w)) /\
      snd (add_message_from_user v w) = w
  end /\
  add_message_from_user (VInt 42) w =
    (Raise (mkExn ValueError
              "Incorrect message type - expecting string, user_msg is <class 'int'>"), w).
Proof.
  split; [|reflexivity].
  destruct v; simpl; try (split; [eexists; split; reflexivity|reflexivity]).
  repeat split.
Qed.

(** C8.  Appending an assistant message succeeds unconditionally and
    validates nothing: for every value given as the text, whatever its type,
    [add_message('assistant', text)] returns and appends the assistant
    message with that text, and so does [add_message_from_gpt_response] on
    every response whose first candidate carries that text, whatever the
    candidates after it; in particular the text "hello" is appended as
    [{assistant, "hello"}] on both paths. *)
Theorem assistant_message_appended_unconditionally (text : value) (w : world) :
  (fst (add_message (VStr "assistant") text w) = Return VNone /\
   messages (self (snd (add_message (VStr "assistant") text w))) =
     messages (self w) ++
       [VDict [("role"%string, VStr "assistant"); ("content"%string, text)]] /\
   message_index (self (snd (add_message (VStr "assistant") text w))) =
     message_index (self w) + 1) /\
  (forall others : list value,
      fst (add_message_from_gpt_response (response_of (text :: others)) w) = Return VNone /\
      messages (self (snd (add_message_from_gpt_response (response_of (text :: others)) w))) =
        messages (self w) ++
          [VDict [("role"%string, VStr "assistant"); ("content"%string, text)]] /\
      message_index (self (snd (add_message_from_gpt_response
                                  (response_of (text :: others)) w))) =
        message_index (self w) + 1) /\
  (forall gpt_response : value,
      first_choice_content gpt_response = Return text ->
      fst (add_message_from_gpt_response gpt_response w) = Return VNone /\
      messages (self (snd (add_message_from_gpt_response gpt_response w))) =
        messages (self w) ++
          [VDict [("role"%string, VStr "assistant"); ("content"%string, text)]]) /\
  (messages (self (snd (add_message (VStr "assistant") (VStr "hello") w))) =
     messages (self w) ++
       [VDict [("role"%string, VStr "assistant"); ("content"%string, VStr "hello")]] /\
   messages (self (snd (add_message_from_gpt_response
                          (response_of [VStr "hello"; VStr "goodbye"]) w))) =
     messages (self w) ++
       [VDict [("role"%string, VStr "assistant"); ("content"%string, VStr "hello")]]).
Proof.
  split; [|split; [|split]].
  - rewrite add_message_run. repeat split.
  - intros others. rewrite add_message_from_gpt_response_run.
    rewrite first_choice_content_response. repeat split.
  - intros r Hr. rewrite add_message_from_gpt_response_run, Hr. split; reflexivity.
  - split; reflexivity.
Qed.

(** C9.  Given an instance of a proper subclass of [str],
    [add_message_from_user] raises [ValueError] and leaves everything
    unchanged: the test is on the exact runtime type, not on the value
    being text. *)
Theorem add_message_from_user_rejects_str_subclass
    (cls : class_ref) (text : string) (w : world) :
  isinstance_str (VStrSub cls text) = true /\
  add_message_from_user (VStrSub cls text) w =
    (Raise (mkExn ValueError
              ("Incorrect message type - expecting string, user_msg is <class '"
                 ++ cls_module cls ++ "." ++ cls_name cls ++ "'>")%string), w).
Proof. split; reflexivity. Qed.

(** C10.  For every pair of strings [role] and [content], whether or not
    [role] is one of [system], [user] and [assistant], [add_message]
    returns, appends the message with that role and content, and advances
    the cursor by one: no role is refused. *)
Theorem add_message_any_role (role content : string) (w : world) :
  fst (add_message (VStr role) (VStr content) w) = Return VNone /\
  messages (self (snd (add_message (VStr role) (VStr content) w))) =
    messages (self w) ++
      [VDict [("role"%string, VStr role); ("content"%string, VStr content)]] /\
  message_index (self (snd (add_message (VStr role) (VStr content) w))) =
    message_index (self w) + 1.
Proof. repeat split. Qed.

End Claims.

(** ** The claims on the scenario sessions *)

(** The transcripts of the scenario sessions. *)
Example session_transcripts :
  messages (self session1) = [message (VStr "system") (VStr "You are helpful.")] /\
  messages (self session2) =
    [message (VStr "system") (VStr "You are helpful."); message (VStr "user") (VStr "Hi")] /\
  messages (self session3) =
    [message (VStr "system") (VStr "You are helpful."); message (VStr "user") (VStr "Hi");
     message (VStr "assistant") (VStr "Hello!")].
Proof. repeat split. Qed.

(** C1 on a session just constructed with the system context
    "You are helpful.": [get_response(0)] and [get_response()] raise instead
    of returning that text. *)
Example get_response_after_init :
  get_response (VInt 0) session1 =
    (Raise (mkExn AttributeError "'dict' object has no attribute 'content'"), session1) /\
  get_response VNone session1 =
    (Raise (mkExn AttributeError "'dict' object has no attribute 'content'"), session1).
Proof. split; reflexivity. Qed.

(** C2 as documented fails: on the three-message session the index -1 is
    outside [0, 3), yet the lookup finds the last message and no
    [IndexError] is raised. *)
Lemma index_minus_one_is_in_range : ~ index_error_iff_outside_0_size.
Proof.
  intros H.
  assert (Hout : ~ (0 <= -1 < size (self session3))) by (intros [Hlo _]; lia).
  apply (H session3 (-1)) in Hout.
  destruct Hout as (e & He & Hcls).
  vm_compute in He. injection He as <-. discriminate Hcls.
Qed.

(** C3 at work: with the service down, and with a service whose response has
    no candidate, the call returns [None] and the handler is untouched. *)
Lemma get_chatgpt_response_swallows_failure_witness :
  (completion_failure service_down session2 (mkExn APIError "The server had an error") /\
   fst (get_chatgpt_response service_down session2) = Return VNone /\
   self (snd (get_chatgpt_response service_down session2)) = self session2) /\
  (completion_failure service_empty session2 (mkExn IndexError "list index out of range") /\
   fst (get_chatgpt_response service_empty session2) = Return VNone /\
   self (snd (get_chatgpt_response service_empty session2)) = self session2).
Proof.
  split.
  - assert (Hf : completion_failure service_down session2
                   (mkExn APIError "The server had an error")) by (left; reflexivity).
    split; [exact Hf|].
    destruct (get_chatgpt_response_swallows_failure service_down session2 _ Hf eq_refl)
      as (Hret & Hself & _).
    split; assumption.
  - assert (Hf : completion_failure service_empty session2
                   (mkExn IndexError "list index out of range")).
    { right. exists (response_of []). split; reflexivity. }
    split; [exact Hf|].
    destruct (get_chatgpt_response_swallows_failure service_empty session2 _ Hf eq_refl)
      as (Hret & Hself & _).
    split; assumption.
Defined.


(** C5 as documented fails: an instance of a subclass of [str] is text, and
    it is refused. *)
Lemma textual_input_refused : ~ user_text_accepted_iff_textual.
Proof.
  intros H. specialize (H tagged_hi session1).
  simpl in H. destruct H as [H _]. discriminate H.
Qed.

(** C6 at work on the scenario: the cursor after the constructor and after
    each of two calls; the growth by one of a user message and of an
    answered completion; and no growth when the integer 42 is refused. *)
Lemma cursor_tracks_size_witness :
  Forall (fun w => message_index (self w) = size (self w) - 1)
    (session1 :: trace service_hello
                   [AddMessageFromUser (VStr "Hi"); GetChatgptResponse] session1) /\
  size (self (snd (add_message_from_user (VStr "Hi") session1))) = size (self session1) + 1 /\
  size (self (snd (get_chatgpt_response service_hello session2))) = size (self session2) + 1 /\
  size (self (snd (add_message_from_user (VInt 42) session2))) = size (self session2).
Proof.
  destruct (cursor_tracks_size service_hello helpful boot
              [AddMessageFromUser (VStr "Hi"); GetChatgptResponse])
    as (Htrace & Huser & _ & _ & Hanswered & Hraised).
  split; [exact Htrace|].
  split; [exact (proj2 (Huser session1 "Hi"%string))|].
  split.
  - exact (proj2 (Hanswered session2 (response_of [VStr "Hello!"; VStr "Hi there!"])
                    (VStr "Hello!") eq_refl eq_refl)).
  - exact (Hraised session2 (AddMessageFromUser (VInt 42)) eq_refl).
Defined.

(** C8 at work on the session just constructed: the text "hello", directly
    and as the first of two candidates; and a reply that is not text at
    all, appended as it is. *)
Lemma assistant_message_appended_unconditionally_witness :
  messages (self (snd (add_message (VStr "assistant") (VStr "hello") session1))) =
    messages (self session1) ++ [message (VStr "assistant") (VStr "hello")] /\
  messages (self (snd (add_message_from_gpt_response
                         (response_of [VStr "hello"; VStr "goodbye"]) session1))) =
    messages (self session1) ++ [message (VStr "assistant") (VStr "hello")] /\
  messages (self (snd (add_message_from_gpt_response
                         (response_of [VNone; VStr "goodbye"]) session1))) =
    messages (self session1) ++ [message (VStr "assistant") VNone].
Proof.
  destruct (assistant_message_appended_unconditionally (VStr "hello") session1)
    as (_ & _ & _ & Hadd & Hresp).
  destruct (assistant_message_appended_unconditionally VNone session1)
    as (_ & _ & Hany & _).
  destruct (Hany (response_of [VNone; VStr "goodbye"]) eq_refl) as (_ & Hnone).
  split; [exact Hadd|]. split; [exact Hresp|exact Hnone].
Defined.

(** C10 at work: a role outside [system], [user], [assistant]. *)
Example add_message_moderator :
  messages (self (snd (add_message (VStr "moderator") (VStr "Be nice.") session1))) =
    [message (VStr "system") (VStr "You are helpful.");
     message (VStr "moderator") (VStr "Be nice.")].
Proof. reflexivity. Qed.

(** ** Further properties of the handler *)

Section Sessions.

Variable create : nat -> ChatCompletion.kwargs -> outcome value.

(** *** What a single call can touch *)

(** Outside the handler, a call leaves the key alone, prints at most one
    line and sends at most one request, and only [get_chatgpt_response]
    prints or sends at all. *)
Lemma invoke_frame c w :
  exists out reqs,
    api_key (snd (invoke create c w)) = api_key w /\
    stdout (snd (invoke create c w)) = stdout w ++ out /\
    requests (snd (invoke create c w)) = requests w ++ reqs /\
    (List.length out <= if is_completion_call c then 1 else 0)%nat /\
    List.length reqs = if is_completion_call c then 1%nat else 0%nat.
Proof.
  destruct c; simpl;
    try (exists [], []; rewrite !app_nil_r; repeat split; simpl; lia).
  - exists [], []. rewrite !app_nil_r, add_message_from_gpt_response_run.
    destruct (first_choice_content _); repeat split; simpl; lia.
  - exists [], []. rewrite !app_nil_r, add_message_from_user_run.
    destruct (is_str _); repeat split; simpl; lia.
  - rewrite get_chatgpt_response_run, completion_run.
    destruct (create _ _) as [r|e].
    + destruct (first_choice_content r) as [reply|e]; simpl.
      * exists [], [request_of (self w)]. rewrite app_nil_r. repeat split; simpl; lia.
      * destruct (is_APIError e); [|destruct (is_Exception e)]; simpl;
          eexists _, [request_of (self w)];
          repeat split; try reflexivity; try (rewrite app_nil_r; reflexivity);
          try (instantiate (1 := []); simpl; lia); simpl; lia.
    + destruct (is_APIError e); [|destruct (is_Exception e)]; simpl;
        eexists _, [request_of (self w)];
        repeat split; try reflexivity; try (rewrite app_nil_r; reflexivity);
        try (instantiate (1 := []); simpl; lia); simpl; lia.
  - exists [], []. rewrite !app_nil_r, get_response_run. repeat split; simpl; lia.
Qed.

Lemma settings_appended role content h : settings (appended role content h) = settings h.
Proof. reflexivity. Qed.

Lemma settings_cleared h : settings (cleared h) = settings h.
Proof. reflexivity. Qed.

Lemma settings_invoke c w : settings (self (snd (invoke create c w))) = settings (self w).
Proof.
  destruct (invoke_effect create c w) as [-> | [(role & content & ->) | ->]];
    auto using settings_appended, settings_cleared.
Qed.

Lemma settings_exec cs w : settings (self (exec create cs w)) = settings (self w).
Proof.
  revert w. induction cs as [|c cs IH]; intros w; simpl; [reflexivity|].
  rewrite IH. apply settings_invoke.
Qed.

Lemma api_key_exec cs w : api_key (exec create cs w) = api_key w.
Proof.
  revert w. induction cs as [|c cs IH]; intros w; simpl; [reflexivity|].
  rewrite IH. destruct (invoke_frame c w) as (out & reqs & H & _). exact H.
Qed.

Lemma system_context_of_settings h h' :
  settings h = settings h' -> system_context h = system_context h'.
Proof. unfold settings. intros H. now injection H. Qed.

Lemma cleared_of_settings h h' : settings h = settings h' -> cleared h = cleared h'.
Proof.
  destruct h, h'. unfold settings. simpl. intros [= -> -> -> -> -> -> ->]. reflexivity.
Qed.

Lemma system_first_invoke c w :
  system_first (self w) -> system_first (self (snd (invoke create c w))).
Proof.
  intros (rest & Hrest).
  destruct (invoke_effect create c w) as [-> | [(role & content & ->) | ->]].
  - now exists rest.
  - exists (rest ++ [message role content]). simpl. now rewrite Hrest.
  - now exists [].
Qed.

Lemma system_first_exec cs w :
  system_first (self w) -> system_first (self (exec create cs w)).
Proof.
  revert w. induction cs as [|c cs IH]; intros w H; simpl; [assumption|].
  apply IH. now apply system_first_invoke.
Qed.

Lemma requests_exec cs w :
  List.length (requests (exec create cs w)) =
    (List.length (requests w) + count_completions cs)%nat.
Proof.
  revert w. induction cs as [|c cs IH]; intros w; simpl.
  - unfold count_completions. simpl. lia.
  - rewrite IH. destruct (invoke_frame c w) as (out & reqs & _ & _ & Hr & _ & Hn).
    rewrite Hr, length_app, Hn. unfold count_completions. simpl.
    destruct (is_completion_call c); simpl; lia.
Qed.

Lemma stdout_exec cs w :
  exists out,
    stdout (exec create cs w) = stdout w ++ out /\
    (List.length out <= count_completions cs)%nat.
Proof.
  revert w. induction cs as [|c cs IH]; intros w; simpl.
  - exists []. rewrite app_nil_r. split; [reflexivity|simpl; lia].
  - destruct (IH (snd (invoke create c w))) as (out2 & -> & H2).
    destruct (invoke_frame c w) as (out1 & reqs & _ & -> & _ & H1 & _).
    exists (out1 ++ out2). rewrite app_assoc, length_app. split; [reflexivity|].
    unfold count_completions in *. simpl.
    destruct (is_completion_call c); simpl in *; lia.
Qed.

(** A call that is not a direct [add_message] appends, if anything, a user
    or an assistant message. *)
Lemma invoke_effect_roles c w :
  is_direct_add c = false ->
  self (snd (invoke create c w)) = self w \/
  (exists content,
      self (snd (invoke create c w)) = appended (VStr "user") content (self w) \/
      self (snd (invoke create c w)) = appended (VStr "assistant") content (self w)) \/
  self (snd (invoke create c w)) = cleared (self w).
Proof.
  destruct c; simpl; try discriminate; intros _.
  - right; right. reflexivity.
  - rewrite add_message_from_gpt_response_run.
    destruct (first_choice_content _) as [reply|e]; simpl; eauto 6.
  - rewrite add_message_from_user_run.
    destruct (is_str _); simpl; eauto 6.
  - rewrite get_chatgpt_response_run, completion_run.
    destruct (create _ _) as [r|e].
    + destruct (first_choice_content r) as [reply|e]; simpl; [eauto 6|].
      destruct (is_APIError e); [|destruct (is_Exception e)]; simpl; auto.
    + destruct (is_APIError e); [|destruct (is_Exception e)]; simpl; auto.
  - rewrite get_response_run. simpl. auto.
Qed.

Lemma known_roles_invoke c w :
  is_direct_add c = false ->
  Forall known_role (messages (self w)) ->
  Forall known_role (messages (self (snd (invoke create c w)))).
Proof.
  intros Hc H.
  destruct (invoke_effect_roles c w Hc) as [-> | [(content & [-> | ->]) | ->]].
  - assumption.
  - simpl. apply Forall_app. split; [assumption|].
    constructor; [|constructor]. exists content. auto.
  - simpl. apply Forall_app. split; [assumption|].
    constructor; [|constructor]. exists content. auto.
  - simpl. constructor; [|constructor]. exists (system_context (self w)). auto.
Qed.

Lemma known_roles_exec cs w :
  forallb (fun c => negb (is_direct_add c)) cs = true ->
  Forall known_role (messages (self w)) ->
  Forall known_role (messages (self (exec create cs w))).
Proof.
  revert w. induction cs as [|c cs IH]; intros w Hcs H; simpl; [assumption|].
  simpl in Hcs. apply andb_prop in Hcs. destruct Hcs as [Hc Hcs].
  apply IH; [assumption|]. apply known_roles_invoke; [|assumption].
  now destruct (is_direct_add c).
Qed.

Lemma append_only_invoke c w :
  is_clear_call c = false ->
  exists added,
    messages (self (snd (invoke create c w))) = messages (self w) ++ added /\
    (List.length added <= 1)%nat.
Proof.
  assert (Hsame : forall w' : world, self w' = self w ->
            exists added, messages (self w') = messages (self w) ++ added /\
                          (List.length added <= 1)%nat).
  { intros w' ->. exists []. rewrite app_nil_r. split; [reflexivity|simpl; lia]. }
  assert (Hadd : forall (w' : world) role content,
            self w' = appended role content (self w) ->
            exists added, messages (self w') = messages (self w) ++ added /\
                          (List.length added <= 1)%nat).
  { intros w' role content ->. exists [message role content].
    split; [reflexivity|simpl; lia]. }
  destruct c; cbn [is_clear_call invoke]; try discriminate; intros _.
  - rewrite add_message_from_gpt_response_run.
    destruct (first_choice_content _) as [reply|e]; [eapply Hadd|apply Hsame]; reflexivity.
  - rewrite add_message_from_user_run.
    destruct (is_str _); [eapply Hadd|apply Hsame]; reflexivity.
  - rewrite add_message_run. eapply Hadd. reflexivity.
  - rewrite get_chatgpt_response_run, completion_run.
    destruct (create _ _) as [r|e].
    + destruct (first_choice_content r) as [reply|e]; [eapply Hadd; reflexivity|].
      destruct (is_APIError e); [|destruct (is_Exception e)]; apply Hsame; reflexivity.
    + destruct (is_APIError e); [|destruct (is_Exception e)]; apply Hsame; reflexivity.
  - rewrite get_response_run. apply Hsame. reflexivity.
Qed.

Lemma append_only_exec cs w :
  forallb (fun c => negb (is_clear_call c)) cs = true ->
  exists added,
    messages (self (exec create cs w)) = messages (self w) ++ added /\
    (List.length added <= List.length cs)%nat.
Proof.
  revert w. induction cs as [|c cs IH]; intros w Hcs; simpl.
  - exists []. rewrite app_nil_r. split; [reflexivity|simpl; lia].
  - simpl in Hcs. apply andb_prop in Hcs. destruct Hcs as [Hc Hcs].
    destruct (IH (snd (invoke create c w)) Hcs) as (added2 & -> & H2).
    destruct (append_only_invoke c w) as (added1 & -> & H1);
      [now destruct (is_clear_call c)|].
    exists (added1 ++ added2). rewrite app_assoc, length_app.
    split; [reflexivity|lia].
Qed.

Lemma user_messages_exec (texts : list string) w :
  self (exec create (map (fun t => AddMessageFromUser (VStr t)) texts) w) =
    set_message_index (message_index (self w) + Z.of_nat (List.length texts))
      (set_messages
         (messages (self w) ++ map (fun t => message (VStr "user") (VStr t)) texts)
         (self w)).
Proof.
  revert w. induction texts as [|t texts IH]; intros w.
  - simpl. rewrite app_nil_r, Z.add_0_r. now destruct (self w).
  - cbn [map exec invoke List.length]. rewrite IH.
    rewrite add_message_from_user_run. simpl.
    rewrite <- app_assoc. simpl.
    replace (message_index (self w) + 1 + Z.of_nat (List.length texts))
      with (message_index (self w) + Z.pos (Pos.of_succ_nat (List.length texts))) by lia.
    reflexivity.
Qed.

(** *** Properties of whole sessions *)

(** The model, the five sampling parameters, the system context and the
    module-level key are those handed to the constructor, whatever calls
    have been made since: no method reassigns them. *)
Theorem settings_never_change (a : init_args) (w0 : world) (cs : list call) :
  let w := exec create cs (construct a w0) in
  model (self w) = arg_model_name a /\
  temperature (self w) = arg_temperature a /\
  max_tokens (self w) = arg_max_tokens a /\
  top_p (self w) = arg_top_p a /\
  frequency_penalty (self w) = arg_frequency_penalty a /\
  presence_penalty (self w) = arg_presence_penalty a /\
  system_context (self w) = arg_system_context a /\
  api_key w = arg_api_key a.
Proof.
  intros w. subst w.
  pose proof (settings_exec cs (construct a w0)) as H.
  rewrite construct_run in H. unfold settings in H. simpl in H.
  injection H as H1 H2 H3 H4 H5 H6 H7.
  rewrite api_key_exec. repeat split; assumption.
Qed.

(** In every session the first message of the transcript is the system
    message carrying the constructor's system context, so subscripting the
    transcript at 0 finds it: appends go to the end and [clear_history] puts
    it back. *)
Theorem system_message_stays_first (a : init_args) (w0 : world) (cs : list call) :
  let w := exec create cs (construct a w0) in
  (exists rest,
      messages (self w) =
        VDict [("role"%string, VStr "system"); ("content"%string, arg_system_context a)]
          :: rest) /\
  list_subscript (messages (self w)) (VInt 0) =
    Return (VDict [("role"%string, VStr "system");
                   ("content"%string, arg_system_context a)]).
Proof.
  intros w.
  assert (Hfirst : system_first (self w)).
  { apply system_first_exec. rewrite construct_run. now exists []. }
  assert (Hctx : system_context (self w) = arg_system_context a).
  { unfold w. rewrite (system_context_of_settings _ _ (settings_exec cs (construct a w0))).
    now rewrite construct_run. }
  destruct Hfirst as (rest & Hrest). rewrite Hctx in Hrest.
  split; [now exists rest|]. now rewrite Hrest.
Qed.

(** As long as [add_message] is not called directly, every message of the
    transcript has the role [system], [user] or [assistant]. *)
Theorem roles_known_without_direct_add (a : init_args) (w0 : world) (cs : list call) :
  forallb (fun c => negb (is_direct_add c)) cs = true ->
  Forall known_role (messages (self (exec create cs (construct a w0)))).
Proof.
  intros Hcs. apply known_roles_exec; [assumption|].
  rewrite construct_run. simpl. constructor; [|constructor].
  exists (arg_system_context a). auto.
Qed.

(** Between two [clear_history] calls the transcript only grows at its end:
    after calls none of which is [clear_history], the transcript is the
    earlier one followed by at most one new message per call. *)
Theorem transcript_append_only (w : world) (cs : list call) :
  forallb (fun c => negb (is_clear_call c)) cs = true ->
  exists added,
    messages (self (exec create cs w)) = messages (self w) ++ added /\
    (List.length added <= List.length cs)%nat.
Proof. apply append_only_exec. Qed.

(** A run of [add_message_from_user] calls given strings appends them as
    user messages in the order of the calls and moves the cursor by their
    number. *)
Theorem user_messages_kept_in_order (texts : list string) (w : world) :
  let w' := exec create (map (fun t => AddMessageFromUser (VStr t)) texts) w in
  messages (self w') =
    messages (self w) ++
      map (fun t => VDict [("role"%string, VStr "user"); ("content"%string, VStr t)]) texts /\
  message_index (self w') = message_index (self w) + Z.of_nat (List.length texts).
Proof.
  intros w'. subst w'. rewrite user_messages_exec. split; reflexivity.
Qed.

(** [clear_history] takes any session back to the handler the constructor
    built: same settings, the system message alone, the cursor at 0. *)
Theorem clear_history_restores_initial (a : init_args) (w0 : world) (cs : list call) :
  self (snd (clear_history (exec create cs (construct a w0)))) = self (construct a w0).
Proof.
  rewrite clear_history_run. unfold with_self. cbn [snd self].
  rewrite (cleared_of_settings _ _ (settings_exec cs (construct a w0))).
  rewrite construct_run. reflexivity.
Qed.

(** Exactly one request is sent per [get_chatgpt_response] call, whether it
    succeeds or fails (nothing is retried), and no other method sends any:
    over a sequence of calls the request log grows by the number of
    [get_chatgpt_response] calls in it. *)
Theorem one_request_per_completion_call (w : world) (cs : list call) :
  List.length (requests (exec create cs w)) =
    (List.length (requests w) + count_completions cs)%nat.
Proof. apply requests_exec. Qed.

(** Nothing printed is ever removed, and over a sequence of calls at most
    one line per [get_chatgpt_response] call is printed: the other methods
    print nothing. *)
Theorem output_only_from_completion_calls (w : world) (cs : list call) :
  exists out,
    stdout (exec create cs w) = stdout w ++ out /\
    (List.length out <= count_completions cs)%nat.
Proof. apply stdout_exec. Qed.

(** Every request a session sends carries the constructor's model and
    sampling parameters and the transcript of that moment, which consists of
    role-and-content dicts only. *)
Theorem request_carries_settings_and_transcript
    (a : init_args) (w0 : world) (cs : list call) :
  let w := exec create cs (construct a w0) in
  requests (snd (get_chatgpt_response create w)) =
    requests w ++
      [ChatCompletion.mkKwargs (arg_model_name a) (messages (self w))
         (arg_temperature a) (arg_max_tokens a) (arg_top_p a)
         (arg_frequency_penalty a) (arg_presence_penalty a)] /\
  Forall (fun m => exists role content,
              m = VDict [("role"%string, role); ("content"%string, content)])
    (messages (self w)).
Proof.
  intros w.
  assert (Hset : settings (self w) = settings (self (construct a w0)))
    by apply settings_exec.
  assert (Hw : well_formed (self w))
    by (apply well_formed_exec, well_formed_construct).
  clearbody w. split.
  - rewrite construct_run in Hset. unfold settings in Hset. simpl in Hset.
    injection Hset as H1 H2 H3 H4 H5 H6 H7.
    assert (Hsent : requests (sent w) = requests w ++
              [ChatCompletion.mkKwargs (arg_model_name a) (messages (self w))
                 (arg_temperature a) (arg_max_tokens a) (arg_top_p a)
                 (arg_frequency_penalty a) (arg_presence_penalty a)]).
    { unfold sent, request_of. simpl. congruence. }
    rewrite get_chatgpt_response_run, completion_run.
    destruct (create _ _) as [r|e].
    + destruct (first_choice_content r) as [reply|e]; simpl; [exact Hsent|].
      destruct (is_APIError e); [|destruct (is_Exception e)]; exact Hsent.
    + destruct (is_APIError e); [|destruct (is_Exception e)]; exact Hsent.
  - destruct Hw as (_ & _ & Hm). exact Hm.
Qed.

(** In every session the cursor selects the message appended last: the
    transcript ends with it, and subscripting the transcript at the cursor,
    like subscripting it at -1, finds it. *)
Theorem cursor_selects_last_message (a : init_args) (w0 : world) (cs : list call) :
  let h := self (exec create cs (construct a w0)) in
  exists front last_message,
    messages h = front ++ [last_message] /\
    list_subscript (messages h) (VInt (message_index h)) = Return last_message /\
    list_subscript (messages h) (VInt (-1)) = Return last_message.
Proof.
  intros h.
  assert (Hw : well_formed h) by (apply well_formed_exec, well_formed_construct).
  destruct Hw as (Hc & Hs & _). unfold cursor_ok, size in *.
  destruct (messages h) as [|m l] eqn:Hl using rev_ind; [simpl in Hs; lia|].
  clear IHl. exists l, m. split; [reflexivity|].
  rewrite Hc. rewrite length_app in *. simpl List.length in *.
  unfold list_subscript, as_index, list_getitem.
  rewrite length_app. simpl List.length.
  split.
  - destruct (Z.ltb_spec (Z.of_nat (List.length l + 1) - 1) 0); [lia|].
    destruct (Z.ltb_spec (Z.of_nat (List.length l + 1) - 1) 0); [lia|].
    destruct (Z.leb_spec (Z.of_nat (List.length l + 1))
                (Z.of_nat (List.length l + 1) - 1)); [lia|].
    simpl orb. cbv iota.
    replace (Z.to_nat (Z.of_nat (List.length l + 1) - 1)) with (List.length l) by lia.
    rewrite nth_error_app2 by lia. now rewrite Nat.sub_diag.
  - replace (-1 <? 0) with true by reflexivity.
    destruct (Z.ltb_spec (-1 + Z.of_nat (List.length l + 1)) 0); [lia|].
    destruct (Z.leb_spec (Z.of_nat (List.length l + 1))
                (-1 + Z.of_nat (List.length l + 1))); [lia|].
    simpl orb. cbv iota.
    replace (Z.to_nat (-1 + Z.of_nat (List.length l + 1))) with (List.length l) by lia.
    rewrite nth_error_app2 by lia. now rewrite Nat.sub_diag.
Qed.

End Sessions.

(** *** Properties of single calls *)

Lemma list_getitem_first x l : list_getitem (x :: l) 0 = Return x.
Proof.
  unfold list_getitem. simpl List.length.
  replace (0 <? 0) with false by reflexivity.
  destruct (Z.leb_spec (Z.of_nat (S (List.length l))) 0); [lia|]. reflexivity.
Qed.

Lemma getitem_int_raises v i e :
  getitem_int v i = Raise e ->
  exn_cls e = IndexError \/ exn_cls e = KeyError \/ exn_cls e = TypeError.
Proof.
  destruct v; simpl; try (intros [= <-]; auto).
  - intros H. left. eapply str_getitem_raises_IndexError; eauto.
  - intros H. left. eapply str_getitem_raises_IndexError; eauto.
  - intros H. left. eapply list_getitem_raises_IndexError; eauto.
Qed.

Lemma first_choice_content_raises r e :
  first_choice_content r = Raise e ->
  exn_cls e = AttributeError \/ exn_cls e = IndexError \/
  exn_cls e = KeyError \/ exn_cls e = TypeError.
Proof.
  unfold first_choice_content.
  destruct (getattr r "choices") as [choices|e1] eqn:H1.
  2:{ intros [= <-]. left. eauto using getattr_raises_AttributeError. }
  destruct (getitem_int choices 0) as [choice|e2] eqn:H2.
  2:{ intros [= <-]. right. eauto using getitem_int_raises. }
  destruct (getattr choice "message") as [msg|e3] eqn:H3.
  2:{ intros [= <-]. left. eauto using getattr_raises_AttributeError. }
  intros H. left. eauto using getattr_raises_AttributeError.
Qed.

Section Calls.

Variable create : nat -> ChatCompletion.kwargs -> outcome value.

(** An exception of the service that is not an [Exception] (a
    [KeyboardInterrupt], a [SystemExit]) is not swallowed: it reaches the
    caller of [get_chatgpt_response]; the request has been sent, the handler
    is untouched and nothing is printed. *)
Theorem base_exception_reaches_caller (w : world) (e : exn) :
  create (List.length (requests w)) (request_of (self w)) = Raise e ->
  is_Exception e = false ->
  fst (get_chatgpt_response create w) = Raise e /\
  self (snd (get_chatgpt_response create w)) = self w /\
  stdout (snd (get_chatgpt_response create w)) = stdout w /\
  requests (snd (get_chatgpt_response create w)) = requests w ++ [request_of (self w)].
Proof.
  intros Hcreate Hexn.
  rewrite get_chatgpt_response_run, completion_run, Hcreate.
  assert (Hapi : is_APIError e = false).
  { unfold is_APIError, is_Exception in *. destruct (exn_cls e); congruence. }
  rewrite Hapi, Hexn. repeat split.
Qed.

(** The line printed for a swallowed failure tells an [APIError] from any
    other [Exception]: "An OpenAI error occurred: " for the first, "An
    unexpected error occurred: " for the second (a malformed response among
    them), each followed by the text of the exception. *)
Theorem failure_is_reported_by_kind (w : world) (e : exn) :
  completion_failure create w e ->
  is_Exception e = true ->
  stdout (snd (get_chatgpt_response create w)) =
    stdout w ++
      [((if is_APIError e then "An OpenAI error occurred: "
         else "An unexpected error occurred: ") ++ exn_str e)%string].
Proof.
  intros Hfail Hexn.
  apply completion_raises_iff in Hfail. destruct Hfail as (w1 & Hrun).
  assert (Hw1 : w1 = sent w).
  { rewrite completion_run in Hrun.
    destruct (create _ _) as [r|e1]; [|congruence].
    destruct (first_choice_content r); congruence. }
  subst w1. rewrite get_chatgpt_response_run, Hrun, Hexn.
  destruct (is_APIError e); reflexivity.
Qed.

(** Called directly, [add_message_from_gpt_response] lets the error of
    reading the reply through to its caller: an [AttributeError], an
    [IndexError], a [KeyError] or a [TypeError]; and then nothing at all has
    changed, the read coming before the append. *)
Theorem add_message_from_gpt_response_failure (r : value) (w : world) (e : exn) :
  fst (add_message_from_gpt_response r w) = Raise e ->
  snd (add_message_from_gpt_response r w) = w /\
  (exn_cls e = AttributeError \/ exn_cls e = IndexError \/
   exn_cls e = KeyError \/ exn_cls e = TypeError).
Proof.
  rewrite add_message_from_gpt_response_run.
  destruct (first_choice_content r) as [reply|e1] eqn:Hr; simpl; [discriminate|].
  intros [= <-]. split; [reflexivity|]. eauto using first_choice_content_raises.
Qed.

(** Given an index whose type is exactly [str], [float], [list] or [dict],
    [get_response] raises the [TypeError] of list subscripting, which names
    that type, and changes nothing. *)
Theorem get_response_rejects_builtin_non_integers (w : world) :
  (forall s : string,
      get_response (VStr s) w =
        (Raise (mkExn TypeError "list indices must be integers or slices, not str"), w)) /\
  (forall bits : Z,
      get_response (VFloat bits) w =
        (Raise (mkExn TypeError "list indices must be integers or slices, not float"), w)) /\
  (forall items : list value,
      get_response (VList items) w =
        (Raise (mkExn TypeError "list indices must be integers or slices, not list"), w)) /\
  (forall entries : list (string * value),
      get_response (VDict entries) w =
        (Raise (mkExn TypeError "list indices must be integers or slices, not dict"), w)).
Proof.
  repeat split; intros; rewrite get_response_run; reflexivity.
Qed.


(** Only the first candidate of a response is read: two responses whose
    lists of candidates start with the same candidate have the same effect,
    whatever the other candidates and the other fields are. *)
Theorem only_first_candidate_is_read
    (cls1 cls2 : class_ref) (fields1 fields2 : list (string * value))
    (choice : value) (others1 others2 : list value) (w : world) :
  assoc "choices" fields1 = Some (VList (choice :: others1)) ->
  assoc "choices" fields2 = Some (VList (choice :: others2)) ->
  add_message_from_gpt_response (VObj cls1 fields1) w =
    add_message_from_gpt_response (VObj cls2 fields2) w.
Proof.
  intros H1 H2. rewrite !add_message_from_gpt_response_run.
  unfold first_choice_content. cbn [getattr]. rewrite H1, H2.
  cbn [getitem_int]. now rewrite !list_getitem_first.
Qed.

(** After a swallowed failure the handler is ready for the same call again:
    a second [get_chatgpt_response] sends the very request the first one
    sent. *)
Theorem failed_completion_resends_same_request (w : world) (e : exn) :
  completion_failure create w e ->
  is_Exception e = true ->
  requests (snd (get_chatgpt_response create (snd (get_chatgpt_response create w)))) =
    requests w ++ [request_of (self w); request_of (self w)].
Proof.
  intros Hfail Hexn.
  apply completion_raises_iff in Hfail. destruct Hfail as (w1 & Hrun).
  assert (Hw1 : w1 = sent w).
  { rewrite completion_run in Hrun.
    destruct (create _ _) as [r|e1]; [|congruence].
    destruct (first_choice_content r); congruence. }
  subst w1.
  set (w2 := snd (get_chatgpt_response create w)).
  assert (Hself : self w2 = self w /\ requests w2 = requests w ++ [request_of (self w)]).
  { unfold w2. rewrite get_chatgpt_response_run, Hrun, Hexn.
    destruct (is_APIError e); split; reflexivity. }
  destruct Hself as [Hself Hreq].
  assert (Hnext : requests (snd (get_chatgpt_response create w2)) =
                    requests w2 ++ [request_of (self w2)]).
  { rewrite get_chatgpt_response_run, completion_run.
    destruct (create _ _) as [r|e2].
    - destruct (first_choice_content r) as [reply|e2]; [reflexivity|].
      destruct (is_APIError e2); [|destruct (is_Exception e2)]; reflexivity.
    - destruct (is_APIError e2); [|destruct (is_Exception e2)]; reflexivity. }
  rewrite Hnext, Hreq, Hself, <- app_assoc. reflexivity.
Qed.

End Calls.

(** *** The further properties on the scenario sessions *)

(** A session that never calls [add_message] directly: a user message, a
    reply of the service, then a reset. *)
Lemma roles_known_without_direct_add_witness :
  Forall known_role
    (messages (self (exec service_hello
                       [AddMessageFromUser (VStr "Hi"); GetChatgptResponse; ClearHistory;
                        AddMessageFromUser (VStr "Again")]
                       (construct helpful boot)))).
Proof.
  apply (roles_known_without_direct_add service_hello helpful boot
           [AddMessageFromUser (VStr "Hi"); GetChatgptResponse; ClearHistory;
            AddMessageFromUser (VStr "Again")]).
  reflexivity.
Defined.

(** Four calls without a reset on the session where the user said "Hi": one
    refused, one appending, one swallowing a failure, one reading. *)
Lemma transcript_append_only_witness :
  exists added,
    messages (self (exec service_down
                      [AddMessageFromUser (VInt 42); AddMessageFromUser (VStr "Hello?");
                       GetChatgptResponse; GetResponse VNone]
                      session2)) =
      messages (self session2) ++ added /\
    (List.length added <= 4)%nat.
Proof.
  apply (transcript_append_only service_down session2
           [AddMessageFromUser (VInt 42); AddMessageFromUser (VStr "Hello?");
            GetChatgptResponse; GetResponse VNone]).
  reflexivity.
Defined.

(** A keyboard interrupt during the request comes out of the call. *)
Lemma base_exception_reaches_caller_witness :
  fst (get_chatgpt_response service_interrupted session2)
    = Raise (mkExn KeyboardInterrupt "") /\
  self (snd (get_chatgpt_response service_interrupted session2)) = self session2 /\
  stdout (snd (get_chatgpt_response service_interrupted session2)) = stdout session2.
Proof.
  destruct (base_exception_reaches_caller service_interrupted session2
              (mkExn KeyboardInterrupt "") eq_refl eq_refl)
    as (Hret & Hself & Hout & _).
  split; [exact Hret|]. split; [exact Hself|exact Hout].
Defined.

(** The two lines: the service down, and a response without candidates. *)
Lemma failure_is_reported_by_kind_witness :
  stdout (snd (get_chatgpt_response service_down session2)) =
    stdout session2 ++ ["An OpenAI error occurred: The server had an error"%string] /\
  stdout (snd (get_chatgpt_response service_empty session2)) =
    stdout session2 ++ ["An unexpected error occurred: list index out of range"%string].
Proof.
  split.
  - apply (failure_is_reported_by_kind service_down session2
             (mkExn APIError "The server had an error")); [left|]; reflexivity.
  - apply (failure_is_reported_by_kind service_empty session2
             (mkExn IndexError "list index out of range")); [|reflexivity].
    right. exists (response_of []). split; reflexivity.
Defined.

(** [add_message_from_gpt_response(None)] *)
Lemma add_message_from_gpt_response_failure_witness :
  fst (add_message_from_gpt_response VNone session2) =
    Raise (mkExn AttributeError "'NoneType' object has no attribute 'choices'") /\
  snd (add_message_from_gpt_response VNone session2) = session2.
Proof.
  split; [reflexivity|].
  apply (add_message_from_gpt_response_failure VNone session2
           (mkExn AttributeError "'NoneType' object has no attribute 'choices'") eq_refl).
Defined.


(** One candidate or two, with or without an [id] field: the same append. *)
Lemma only_first_candidate_is_read_witness :
  add_message_from_gpt_response (response_of [VStr "Hello!"; VStr "Hi there!"]) session2 =
    add_message_from_gpt_response
      (VObj openai_object [("choices"%string, VList [choice_of (VStr "Hello!")])]) session2.
Proof.
  apply (only_first_candidate_is_read openai_object openai_object
           [("id"%string, VStr "chatcmpl-1");
            ("choices"%string, VList (map choice_of [VStr "Hello!"; VStr "Hi there!"]))]
           [("choices"%string, VList [choice_of (VStr "Hello!")])]
           (choice_of (VStr "Hello!")) [choice_of (VStr "Hi there!")] [] session2);
    reflexivity.
Defined.

(** The service down for the first request: the second call sends it again. *)
Lemma failed_completion_resends_same_request_witness :
  requests (snd (get_chatgpt_response service_recovering
                   (snd (get_chatgpt_response service_recovering session2)))) =
    requests session2 ++ [request_of (self session2); request_of (self session2)].
Proof.
  apply (failed_completion_resends_same_request service_recovering session2
           (mkExn APIError "The server had an error")); [left|]; reflexivity.
Defined.
